(** * The product page of [frontend/app/page.tsx]

    A shallow embedding of the [Home] component: its three pieces of React
    state, the axios client it talks to, the handlers [fetchProducts],
    [handleInputChange], [handleSubmit], [handleEdit] and [handleDelete],
    the mount effect, and the part of the rendered view that depends on the
    state and wires the handlers to the form and to the rows.

    Conventions of the embedding.
    - A JavaScript string is a [string]; each character stands for the code
      unit of the same number, so the model covers strings whose code units
      are below 256.
    - A product [id] is an integer ([Z]); the backend hands out integer keys.
    - A [number] that comes out of [parseFloat] is kept as the decimal that
      was read (sign, digits, power of ten) and stands for the binary64
      nearest to it.  A decimal beyond the finite binary64 values is an
      infinity and one too small for them a zero; inside that range the
      rounding itself is not computed.
    - An [async] handler is run to completion: every [await] asks the network
      for the outcome of the request it has just issued.  The network is an
      arbitrary function of the request and of how many requests came
      before. *)

From Stdlib Require Import ZArith NArith List String Ascii Bool Lia.
From Stdlib Require Import DecimalString DecimalZ DecimalPos.
Import ListNotations.
Local Open Scope string_scope.
Local Open Scope Z_scope.

(** ** JavaScript values used by the page *)

(** The numbers [parseFloat] can return.  [Dec neg m e] is the binary64
    nearest to [(-1)^neg * m * 10^e]; [parseFloat] returns it with [m <> 0]
    only when that value is finite and not a zero. *)
Inductive number : Type :=
| NaN
| Infinity (neg : bool)
| Dec (neg : bool) (m : N) (e : Z).

(** The literal [0]. *)
Definition zero : number := Dec false 0%N 0.

(** [ToBoolean] on a number: [NaN], [+0] and [-0] are falsy. *)
Definition ToBoolean_number (x : number) : bool :=
  match x with
  | NaN => false
  | Infinity _ => true
  | Dec _ m _ => negb (m =? 0)%N
  end.

(** [x || y] on numbers. *)
Definition or_number (x y : number) : number :=
  if ToBoolean_number x then x else y.

(** [ToBoolean] on a string: only the empty string is falsy. *)
Definition ToBoolean_string (s : string) : bool :=
  match s with
  | EmptyString => false
  | String _ _ => true
  end.

(** [x || y] where [x : string | null] and [y : string]. *)
Definition or_string (x : option string) (y : string) : string :=
  match x with
  | Some s => if ToBoolean_string s then s else y
  | None => y
  end.

(** [String(x)] applied to a value that already is a string. *)
Definition String_of_string (s : string) : string := s.

(** [ToString] on an integral number: its decimal digits, with a minus
    sign when negative.  This is what JavaScript writes for every integer a
    number holds exactly, those up to [2^53] in size among them; past that
    it writes the digits of the nearest binary64 and, from [10^21] on,
    exponent notation. *)
Definition ToString_Z (n : Z) : string := NilZero.string_of_int (Z.to_int n).

(** [ToBoolean] and [ToString] on a value of type [number | null]. *)
Definition ToBoolean_id (v : option Z) : bool :=
  match v with
  | Some n => negb (n =? 0)
  | None => false
  end.

Definition ToString_id (v : option Z) : string :=
  match v with
  | Some n => ToString_Z n
  | None => "null"
  end.

(** ** [parseFloat] *)

Module ParseFloat.

Definition code (c : ascii) : N := N_of_ascii c.

Definition is_digit (c : ascii) : bool :=
  ((48 <=? code c) && (code c <=? 57))%N.

Definition digit_val (c : ascii) : N := (code c - 48)%N.

(** White space and line terminators among the code units below 256:
    TAB, LF, VT, FF, CR, SP and NBSP. *)
Definition is_white_space (c : ascii) : bool :=
  let n := code c in
  ((n =? 9) || (n =? 10) || (n =? 11) || (n =? 12) || (n =? 13)
   || (n =? 32) || (n =? 160))%N.

Fixpoint trim_start (cs : list ascii) : list ascii :=
  match cs with
  | c :: rest => if is_white_space c then trim_start rest else cs
  | [] => []
  end.

(** Reads a maximal run of decimal digits: the value accumulated on top of
    [acc], how many digits were read, and what follows. *)
Fixpoint digits (cs : list ascii) (acc : N) (cnt : nat)
  : N * nat * list ascii :=
  match cs with
  | c :: rest =>
      if is_digit c then digits rest (acc * 10 + digit_val c)%N (S cnt)
      else (acc, cnt, cs)
  | [] => (acc, cnt, [])
  end.

Definition is_char (a c : ascii) : bool := (code a =? code c)%N.

Fixpoint starts_with (p cs : list ascii) : bool :=
  match p, cs with
  | [], _ => true
  | a :: p', c :: cs' => is_char a c && starts_with p' cs'
  | _ :: _, [] => false
  end.

(** ExponentPart, when one is there: [e] or [E], an optional sign and at
    least one digit.  Anything else is left unread and counts as [0]. *)
Definition exponent (cs : list ascii) : Z :=
  match cs with
  | c :: rest =>
      if is_char "e" c || is_char "E" c then
        match rest with
        | s :: rest' =>
            if is_char "-" s then
              match digits rest' 0%N 0%nat with
              | (_, O, _) => 0
              | (v, S _, _) => - Z.of_N v
              end
            else if is_char "+" s then
              match digits rest' 0%N 0%nat with
              | (_, O, _) => 0
              | (v, S _, _) => Z.of_N v
              end
            else
              match digits rest 0%N 0%nat with
              | (_, O, _) => 0
              | (v, S _, _) => Z.of_N v
              end
        | [] => 0
        end
      else 0
  | [] => 0
  end.

(** Where a decimal [m * 10^e] with [m <> 0] leaves the finite binary64
    values: from [2^1024 - 2^970] on it rounds to an infinity, up to
    [2^-1075] it rounds to zero. *)
Definition overflows (m : N) (e : Z) : bool :=
  let top := 2 ^ 1024 - 2 ^ 970 in
  if 0 <=? e then top <=? Z.of_N m * 10 ^ e
  else top * 10 ^ (- e) <=? Z.of_N m.

Definition underflows (m : N) (e : Z) : bool :=
  if 0 <=? e then false
  else Z.of_N m * 2 ^ 1075 <=? 10 ^ (- e).

(** The Number value of the decimal [(-1)^neg * m * 10^e]. *)
Definition to_double (neg : bool) (m : N) (e : Z) : number :=
  if (m =? 0)%N then Dec neg 0 e
  else if overflows m e then Infinity neg
  else if underflows m e then Dec neg 0 e
  else Dec neg m e.

(** The longest prefix that is a StrUnsignedDecimalLiteral. *)
Definition unsigned_literal (neg : bool) (cs : list ascii) : number :=
  if starts_with (list_ascii_of_string "Infinity") cs then Infinity neg
  else
    match digits cs 0%N 0%nat with
    | (ip, S _, rest) =>
        (* DecimalDigits . DecimalDigits(opt) ExponentPart(opt)
           or DecimalDigits ExponentPart(opt) *)
        match rest with
        | c :: rest' =>
            if is_char "." c then
              match digits rest' ip 0%nat with
              | (m, k, rest'') =>
                  to_double neg m (exponent rest'' - Z.of_nat k)
              end
            else to_double neg ip (exponent rest)
        | [] => to_double neg ip 0
        end
    | (_, O, _) =>
        (* . DecimalDigits ExponentPart(opt) *)
        match cs with
        | c :: rest' =>
            if is_char "." c then
              match digits rest' 0%N 0%nat with
              | (_, O, _) => NaN
              | (m, S k, rest'') =>
                  to_double neg m (exponent rest'' - Z.of_nat (S k))
              end
            else NaN
        | [] => NaN
        end
    end.

Definition signed_literal (cs : list ascii) : number :=
  match cs with
  | c :: rest =>
      if is_char "-" c then unsigned_literal true rest
      else if is_char "+" c then unsigned_literal false rest
      else unsigned_literal false cs
  | [] => NaN
  end.

Definition parseFloat (s : string) : number :=
  signed_literal (trim_start (list_ascii_of_string s)).

(** Whether a text begins with a decimal literal: a digit, a [.] followed
    by a digit, or [Infinity], each possibly after one sign. *)
Definition begins_unsigned (body : list ascii) : bool :=
  match body with
  | c :: rest =>
      is_digit c
      || (is_char "." c
          && match rest with d :: _ => is_digit d | [] => false end)
      || starts_with (list_ascii_of_string "Infinity") body
  | [] => false
  end.

Definition begins_numeric (cs : list ascii) : bool :=
  match cs with
  | c :: rest =>
      if is_char "-" c || is_char "+" c then begins_unsigned rest
      else begins_unsigned cs
  | [] => false
  end.

(** Text [parseFloat] finds no number in: after leading white space it
    does not begin with a decimal literal. *)
Definition no_leading_number (s : string) : Prop :=
  begins_numeric (trim_start (list_ascii_of_string s)) = false.

End ParseFloat.
Export ParseFloat.

(** ** Data model *)

(** [interface Product]. *)
Module Product.
Record t : Type := mk
  { id : Z;
    name : string;
    description : option string;
    price : string }.
End Product.

(** The object held by [formData]. *)
Module Form.
Record t : Type := mk
  { name : string;
    description : string;
    price : string }.
End Form.

(** [submissionData]: the form with its price turned into a number. *)
Module Payload.
Record t : Type := mk
  { name : string;
    description : string;
    price : number }.
End Payload.

(** The three [useState] cells of [Home]. *)
Record HomeState : Type := mkHome
  { products : list Product.t;
    formData : Form.t;
    editingId : option Z }.

(** What [useState] is initialised with. *)
Definition initial : HomeState :=
  {| products := [];
     formData := Form.mk "" "" "";
     editingId := None |}.

(** ** Requests, outcomes and the trace of effects *)

Inductive Method : Type := GET | POST | PUT | DELETE.

Record Request : Type := mkRequest
  { method : Method;
    url : string;
    body : option Payload.t }.

(** Why a request may be rejected: no response at all, or a status outside
    2xx. *)
Inductive AxiosError : Type :=
| NetworkError
| BadStatus (status : nat).

(** A settled request.  [data] is the parsed response body; only the
    [get<Product[]>] call reads it. *)
Inductive Outcome : Type :=
| Resolved (data : list Product.t)
| Rejected (error : AxiosError).

(** The backend as seen from the page: the outcome of the [n]-th request. *)
Definition Network : Type := nat -> Request -> Outcome.

Inductive Event : Type :=
| PreventDefault
| Http (r : Request)
| ConsoleError (msg : string) (error : AxiosError)
| UnhandledRejection (error : AxiosError).

Record World : Type := mkWorld
  { state : HomeState;
    trace : list Event }.

(** The requests of a trace, oldest first. *)
Fixpoint requests (tr : list Event) : list Request :=
  match tr with
  | Http r :: tr' => r :: requests tr'
  | _ :: tr' => requests tr'
  | [] => []
  end.

(** The diagnostics of a trace, oldest first. *)
Fixpoint diagnostics (tr : list Event) : list string :=
  match tr with
  | ConsoleError msg _ :: tr' => msg :: diagnostics tr'
  | _ :: tr' => diagnostics tr'
  | [] => []
  end.

(** The unhandled promise rejections of a trace, oldest first. *)
Fixpoint rejections (tr : list Event) : list AxiosError :=
  match tr with
  | UnhandledRejection e :: tr' => e :: rejections tr'
  | _ :: tr' => rejections tr'
  | [] => []
  end.

(** How many requests have been issued so far. *)
Definition sent (w : World) : nat := List.length (requests (trace w)).

(** ** The monad of handlers: state, trace, network and exceptions *)

Inductive Completion (A : Type) : Type :=
| Normal (a : A)
| Throw (error : AxiosError).
Arguments Normal {A} a.
Arguments Throw {A} error.

Definition M (A : Type) : Type := Network -> World -> Completion A * World.

Definition ret {A} (a : A) : M A := fun _ w => (Normal a, w).

Definition bind {A B} (m : M A) (k : A -> M B) : M B :=
  fun net w =>
    match m net w with
    | (Normal a, w') => k a net w'
    | (Throw e, w') => (Throw e, w')
    end.

Notation "x <- m ;; k" := (bind m (fun x => k))
  (at level 61, m at next level, right associativity).
Notation "m ;; k" := (bind m (fun _ => k))
  (at level 61, right associativity).

(** [try { m } catch (error) { h error }]. *)
Definition try_catch {A} (m : M A) (h : AxiosError -> M A) : M A :=
  fun net w =>
    match m net w with
    | (Normal a, w') => (Normal a, w')
    | (Throw e, w') => h e net w'
    end.

Notation "'try' m 'catch' h" := (try_catch m h) (at level 62, m at level 61).

(** Calling an [async] function without awaiting it: the caller goes on
    whatever becomes of the promise.  The callee's effects are appended
    where it is called; when its promise is rejected nobody is there to
    catch it, and the rejection is reported as unhandled. *)
Definition detached (m : M unit) : M unit :=
  fun net w =>
    match m net w with
    | (Normal _, w') => (Normal tt, w')
    | (Throw e, w') =>
        (Normal tt,
         {| state := state w';
            trace := (trace w' ++ [UnhandledRejection e])%list |})
    end.

Definition emit (ev : Event) : M unit :=
  fun _ w => (Normal tt, {| state := state w; trace := (trace w ++ [ev])%list |}).

(** [await] on a request: it is issued, and the network settles it. *)
Definition await (r : Request) : M (list Product.t) :=
  fun net w =>
    let w' := {| state := state w; trace := (trace w ++ [Http r])%list |} in
    match net (sent w) r with
    | Resolved data => (Normal data, w')
    | Rejected e => (Throw e, w')
    end.

Definition modify (f : HomeState -> HomeState) : M unit :=
  fun _ w => (Normal tt, {| state := f (state w); trace := trace w |}).

Definition setProducts (v : list Product.t) : M unit :=
  modify (fun s => {| products := v;
                      formData := formData s;
                      editingId := editingId s |}).

Definition setFormData (v : Form.t) : M unit :=
  modify (fun s => {| products := products s;
                      formData := v;
                      editingId := editingId s |}).

Definition setEditingId (v : option Z) : M unit :=
  modify (fun s => {| products := products s;
                      formData := formData s;
                      editingId := v |}).

Definition console_error (msg : string) (error : AxiosError) : M unit :=
  emit (ConsoleError msg error).

Definition preventDefault : M unit := emit PreventDefault.

(** [axios.create({ baseURL })]: every method takes a path under it. *)
Module apiClient.
Definition baseURL : string := "http://127.0.0.1:8000/api".
Definition get (path : string) : M (list Product.t) :=
  await (mkRequest GET path None).
Definition post (path : string) (data : Payload.t) : M (list Product.t) :=
  await (mkRequest POST path (Some data)).
Definition put (path : string) (data : Payload.t) : M (list Product.t) :=
  await (mkRequest PUT path (Some data)).
Definition delete (path : string) : M (list Product.t) :=
  await (mkRequest DELETE path None).
End apiClient.

(** ** The component *)

Section Home.

(** The values of the state cells in the render whose handlers run. *)
Variable render : HomeState.

Definition fetchProducts : M unit :=
  try
    (data <- apiClient.get "/products/" ;;
     setProducts data)
  catch (fun error => console_error "Gagal mengambil data produk:" error).

Definition submissionData : Payload.t :=
  {| Payload.name := Form.name (formData render);
     Payload.description := Form.description (formData render);
     Payload.price :=
       or_number (parseFloat (Form.price (formData render))) zero |}.

Definition handleSubmit : M unit :=
  preventDefault ;;
  (if ToBoolean_id (editingId render) then
     try
       (apiClient.put
          ("/products/" ++ ToString_id (editingId render) ++ "/")
          submissionData ;;
        setEditingId None)
     catch (fun error => console_error "Gagal mengupdate produk:" error)
   else
     try
       (apiClient.post "/products/" submissionData ;;
        ret tt)
     catch (fun error => console_error "Gagal membuat produk:" error)) ;;
  setFormData (Form.mk "" "" "") ;;
  detached fetchProducts.

Definition handleEdit (product : Product.t) : M unit :=
  setEditingId (Some (Product.id product)) ;;
  setFormData
    {| Form.name := Product.name product;
       Form.description := or_string (Product.description product) "";
       Form.price := String_of_string (Product.price product) |}.

Definition handleDelete (id : Z) : M unit :=
  try
    (apiClient.delete ("/products/" ++ ToString_Z id ++ "/") ;;
     detached fetchProducts)
  catch (fun error => console_error "Gagal menghapus produk:" error).

End Home.

(** An event reaches the handler of the current render. *)
Definition fire {A} (handler : HomeState -> M A) : M A :=
  fun net w => handler (state w) net w.

(** ** Vocabulary of the specification *)

(** The collection endpoint and the endpoint of one product. *)
Definition collection_endpoint : string := "/products/".
Definition resource_endpoint (id : Z) : string :=
  "/products/" ++ ToString_Z id ++ "/".

(** [x ?? y]: the right operand only when the left one is [null]. *)
Definition nullish (x : option string) (y : string) : string :=
  match x with
  | Some s => s
  | None => y
  end.

(** Numeric text as the words are ordinarily read: the whole text is a
    number, that is an optional sign, then digits with at most one decimal
    point among them, at least one digit, and nothing else. *)
Fixpoint plain_decimal (cs : list ascii) (dot digit : bool) : bool :=
  match cs with
  | [] => digit
  | c :: rest =>
      if is_digit c then plain_decimal rest dot true
      else if is_char "." c then negb dot && plain_decimal rest true digit
      else false
  end.

Definition numeric_text (s : string) : bool :=
  match list_ascii_of_string s with
  | c :: rest =>
      if is_char "-" c || is_char "+" c then plain_decimal rest false false
      else plain_decimal (c :: rest) false false
  | [] => false
  end.

(** The cleared form. *)
Definition empty_form : Form.t := Form.mk "" "" "".

(** The requests and diagnostics a run added to the trace it started
    from. *)
Definition issued (before after : World) : list Request :=
  skipn (sent before) (requests (trace after)).

Definition logged (before after : World) : list string :=
  skipn (List.length (diagnostics (trace before))) (diagnostics (trace after)).

Definition with_method (m : Method) (r : Request) : bool :=
  match m, method r with
  | GET, GET | POST, POST | PUT, PUT | DELETE, DELETE => true
  | _, _ => false
  end.

(** The request [fetchProducts] sends, and the one a submission sends from
    a given render. *)
Definition fetch_request : Request := mkRequest GET collection_endpoint None.

Definition submit_request (st : HomeState) : Request :=
  if ToBoolean_id (editingId st) then
    mkRequest PUT ("/products/" ++ ToString_id (editingId st) ++ "/")
      (Some (submissionData st))
  else mkRequest POST collection_endpoint (Some (submissionData st)).

Definition delete_request (id : Z) : Request :=
  mkRequest DELETE (resource_endpoint id) None.

Definition submit_diagnostic (st : HomeState) : string :=
  if ToBoolean_id (editingId st) then "Gagal mengupdate produk:"
  else "Gagal membuat produk:".

(** The world a submission leaves behind just before it re-fetches: the
    request has settled and the form has been reset. *)
Definition submitted (net : Network) (w : World) : World :=
  let st := state w in
  match net (sent w) (submit_request st) with
  | Resolved _ =>
      mkWorld
        (mkHome (products st) empty_form
           (if ToBoolean_id (editingId st) then None else editingId st))
        (trace w ++ [PreventDefault; Http (submit_request st)])
  | Rejected e =>
      mkWorld (mkHome (products st) empty_form (editingId st))
        (trace w ++ [PreventDefault; Http (submit_request st);
                     ConsoleError (submit_diagnostic st) e])
  end.

(** Worlds and networks used as concrete inputs. *)
Definition offline : Network := fun _ _ => Rejected NetworkError.

Definition pen : Product.t := Product.mk 1 "Pen" None "1.50".

Definition online : Network := fun _ _ => Resolved [pen].

Definition fresh : World := mkWorld initial [].

Definition editing (id : Z) (price : string) : World :=
  mkWorld (mkHome [pen] (Form.mk "Pen" "" price) (Some id)) [].

(** ** The rest of the component: input changes, mounting, the view *)

(** [e.target] of the change event of an input: its [name] attribute and
    its current [value]. *)
Module ChangeEvent.
Record t : Type := mk
  { name : string;
    value : string }.
End ChangeEvent.

(** [setFormData(f)] with an updater function: [f] is applied to the value
    the cell holds when the update runs. *)
Definition setFormDataWith (f : Form.t -> Form.t) : M unit :=
  modify (fun s => {| products := products s;
                      formData := f (formData s);
                      editingId := editingId s |}).

(** [{ ...prev, [key]: value }] as far as the three fields of the form go.
    A key that is none of them leaves the three fields as they are. *)
Definition assign (prev : Form.t) (key value : string) : Form.t :=
  if String.eqb key "name" then
    Form.mk value (Form.description prev) (Form.price prev)
  else if String.eqb key "description" then
    Form.mk (Form.name prev) value (Form.price prev)
  else if String.eqb key "price" then
    Form.mk (Form.name prev) (Form.description prev) value
  else prev.

(** [form[key]] on the three fields of the form. *)
Definition field (form : Form.t) (key : string) : option string :=
  if String.eqb key "name" then Some (Form.name form)
  else if String.eqb key "description" then Some (Form.description form)
  else if String.eqb key "price" then Some (Form.price form)
  else None.

Definition handleInputChange (e : ChangeEvent.t) : M unit :=
  let name := ChangeEvent.name e in
  let value := ChangeEvent.value e in
  setFormDataWith (fun prev => assign prev name value).

(** The effect of [useEffect(..., [])]: one un-awaited call of
    [fetchProducts] after the first render. *)
Definition mount : M unit := detached fetchProducts.

(** One entry of the rendered list.  [price] is the text handed to
    [Number(...).toLocaleString]; the formatting itself is not modelled. *)
Module Row.
Record t : Type := mk
  { key : Z;
    name : string;
    description : option string;
    price : string;
    onEdit : M unit;
    onDelete : M unit }.
End Row.

(** What [Home] returns, reduced to what depends on the state. *)
Record View : Type := mkView
  { heading : string;
    inputs : Form.t;
    button : string;
    onSubmit : M unit;
    rows : list Row.t }.

Section HomeView.

Variable render : HomeState.

Definition row (product : Product.t) : Row.t :=
  {| Row.key := Product.id product;
     Row.name := Product.name product;
     Row.description := Product.description product;
     Row.price := Product.price product;
     Row.onEdit := handleEdit product;
     Row.onDelete := handleDelete (Product.id product) |}.

Definition view : View :=
  {| heading :=
       if ToBoolean_id (editingId render) then "Edit Produk"
       else "Tambah Produk Baru";
     inputs := formData render;
     button :=
       if ToBoolean_id (editingId render) then "Update Produk"
       else "Simpan Produk";
     onSubmit := handleSubmit render;
     rows := map row (products render) |}.

End HomeView.

(** ** User actions on the rendered page *)

Inductive Action : Type :=
| Change (e : ChangeEvent.t)
| Submit
| ClickEdit (i : nat)
| ClickDelete (i : nat).

(** An action reaches the handler the current view has wired to it; a
    click on a row that is not rendered reaches nothing. *)
Definition dispatch (a : Action) : M unit :=
  fun net w =>
    let v := view (state w) in
    match a with
    | Change e => handleInputChange e net w
    | Submit => onSubmit v net w
    | ClickEdit i =>
        match nth_error (rows v) i with
        | Some r => Row.onEdit r net w
        | None => (Normal tt, w)
        end
    | ClickDelete i =>
        match nth_error (rows v) i with
        | Some r => Row.onDelete r net w
        | None => (Normal tt, w)
        end
    end.

(** Actions are handled one after the other, each handler running to its
    end before the next action arrives. *)
Fixpoint run (acts : list Action) : M unit :=
  match acts with
  | [] => ret tt
  | a :: rest => dispatch a ;; run rest
  end.

(** The life of the page: mounted from the initial state, then used. *)
Definition session (acts : list Action) : M unit := mount ;; run acts.

(** The four calls the backend offers. *)
Inductive api_call : Request -> Prop :=
| api_list : api_call (mkRequest GET collection_endpoint None)
| api_create data :
    Payload.price data <> NaN ->
    api_call (mkRequest POST collection_endpoint (Some data))
| api_update id data :
    id <> 0 ->
    Payload.price data <> NaN ->
    api_call (mkRequest PUT (resource_endpoint id) (Some data))
| api_destroy id :
    api_call (mkRequest DELETE (resource_endpoint id) None).

(** A list of products the server has sent in reply to some fetch. *)
Definition served (net : Network) (data : list Product.t) : Prop :=
  exists n, net n fetch_request = Resolved data.

(** The characters [ToString] writes for a run of decimal digits. *)
Definition chars (d : Decimal.uint) : list ascii :=
  list_ascii_of_string (NilEmpty.string_of_uint d).

(** What every reachable state satisfies: the list is the initial empty one
    or one the server sent, and the editing target, when there is one, is
    the id of a product the server sent. *)
Definition reachable (net : Network) (st : HomeState) : Prop :=
  (products st = [] \/ served net (products st))
  /\ (editingId st = None
      \/ exists data p,
           served net data /\ In p data /\ editingId st = Some (Product.id p)).

(** * Properties *)

(** ** The parser *)

Example parseFloat_1_50 : parseFloat "1.50" = Dec false 150 (-2).
Proof. reflexivity. Qed.

Example parseFloat_exp : parseFloat "  -12.5e+3kg" = Dec true 125 2.
Proof. reflexivity. Qed.

Example parseFloat_dot : parseFloat ".5" = Dec false 5 (-1).
Proof. reflexivity. Qed.

Example parseFloat_bad_exp : parseFloat "7e" = Dec false 7 0.
Proof. reflexivity. Qed.

Example parseFloat_abc : parseFloat "abc" = NaN.
Proof. reflexivity. Qed.

(** Decimals outside the range of binary64. *)
Example parseFloat_overflow : parseFloat "1e400" = Infinity false.
Proof. vm_compute. reflexivity. Qed.

Example parseFloat_underflow : or_number (parseFloat "1e-400") zero = zero.
Proof. vm_compute. reflexivity. Qed.

(** Text that only starts with a number is read up to where the number
    ends. *)
Example parseFloat_leading_numeric : parseFloat "12abc" = Dec false 12 0.
Proof. reflexivity. Qed.

Example ToString_Z_42 : ToString_Z 42 = "42".
Proof. reflexivity. Qed.

Example ToString_Z_0 : ToString_Z 0 = "0".
Proof. reflexivity. Qed.

Example ToString_Z_neg : ToString_Z (-7) = "-7".
Proof. reflexivity. Qed.

Lemma digits_count_le cs : forall acc cnt,
  (cnt <= snd (fst (digits cs acc cnt)))%nat.
Proof.
  induction cs as [|c cs IH]; intros acc cnt; simpl.
  - apply Nat.le_refl.
  - destruct (is_digit c); simpl.
    + specialize (IH (acc * 10 + digit_val c)%N (S cnt)). lia.
    + apply Nat.le_refl.
Qed.

Lemma digits_digit c cs acc :
  is_digit c = true ->
  exists v k rest, digits (c :: cs) acc 0%nat = (v, S k, rest).
Proof.
  intros Hd. simpl. rewrite Hd.
  pose proof (digits_count_le cs (acc * 10 + digit_val c)%N 1%nat) as Hle.
  destruct (digits cs (acc * 10 + digit_val c)%N 1%nat) as [[v k] rest].
  simpl in Hle. destruct k as [|k]; [lia|]. now exists v, k, rest.
Qed.

Lemma digits_no_digit c cs acc cnt :
  is_digit c = false -> digits (c :: cs) acc cnt = (acc, cnt, c :: cs).
Proof. intros Hd. simpl. now rewrite Hd. Qed.

Lemma to_double_not_NaN neg m e : to_double neg m e <> NaN.
Proof.
  unfold to_double. destruct (m =? 0)%N; [discriminate|].
  destruct (overflows m e); [discriminate|].
  destruct (underflows m e); discriminate.
Qed.

Ltac never_NaN :=
  split; [intros H; now apply to_double_not_NaN in H | discriminate].

Lemma unsigned_literal_NaN neg body :
  unsigned_literal neg body = NaN <-> begins_unsigned body = false.
Proof.
  unfold unsigned_literal, begins_unsigned.
  destruct body as [|c rest]; [easy|].
  destruct (starts_with (list_ascii_of_string "Infinity") (c :: rest)).
  { rewrite orb_true_r. easy. }
  rewrite orb_false_r.
  destruct (is_digit c) eqn:Hc.
  - destruct (digits_digit c rest 0%N Hc) as (v & k & rest' & ->).
    cbv beta iota. cbn [orb].
    destruct rest' as [|c' rest'']; [never_NaN|].
    destruct (is_char "." c'); [|never_NaN].
    destruct (digits rest'' v 0%nat) as [[m k'] r]. never_NaN.
  - rewrite (digits_no_digit c rest 0%N 0%nat Hc). cbv beta iota. cbn [orb].
    destruct (is_char "." c); [|easy].
    destruct rest as [|d r]; [easy|].
    destruct (is_digit d) eqn:Hd.
    + destruct (digits_digit d r 0%N Hd) as (v & k & rest' & ->).
      cbv beta iota. cbn [andb]. never_NaN.
    + rewrite (digits_no_digit d r 0%N 0%nat Hd). easy.
Qed.

(** [parseFloat] fails exactly on text with no leading number. *)
Lemma parseFloat_NaN s : parseFloat s = NaN <-> no_leading_number s.
Proof.
  unfold parseFloat, no_leading_number, signed_literal, begins_numeric.
  destruct (trim_start (list_ascii_of_string s)) as [|c rest]; [easy|].
  destruct (is_char "-" c); simpl; [apply unsigned_literal_NaN|].
  destruct (is_char "+" c); simpl; apply unsigned_literal_NaN.
Qed.

Lemma parseFloat_empty : parseFloat "" = NaN.
Proof. reflexivity. Qed.

(** [||] and [??] agree when the right operand is the empty string. *)
Lemma or_string_nullish (x : option string) : or_string x "" = nullish x "".
Proof. destruct x as [[|c s]|]; reflexivity. Qed.

(** ** Endpoints *)

Lemma to_int_proper n :
  Z.to_int n <> Decimal.Pos Decimal.Nil /\ Z.to_int n <> Decimal.Neg Decimal.Nil.
Proof.
  destruct n as [|p|p]; simpl; split; try discriminate; intros [= H];
    now apply (Unsigned.to_uint_nonnil p).
Qed.

Lemma ToString_Z_inj n n' : ToString_Z n = ToString_Z n' -> n = n'.
Proof.
  unfold ToString_Z. intros H. apply DecimalZ.to_int_inj.
  apply (f_equal NilZero.int_of_string) in H.
  destruct (to_int_proper n) as [Hp Hn], (to_int_proper n') as [Hp' Hn'].
  rewrite !NilZero.isi in H by assumption. now injection H.
Qed.

Lemma append_slash_inj a : forall b, a ++ "/" = b ++ "/" -> a = b.
Proof.
  induction a as [|x a IH]; intros [|y b] H; simpl in H.
  - reflexivity.
  - injection H as _ H. now destruct b.
  - injection H as _ H. now destruct a.
  - injection H as -> H. f_equal. now apply IH.
Qed.

(** Distinct products have distinct endpoints. *)
Lemma resource_endpoint_inj id id' :
  resource_endpoint id = resource_endpoint id' -> id = id'.
Proof.
  unfold resource_endpoint. intros H. simpl in H.
  injection H as H. now apply ToString_Z_inj, append_slash_inj.
Qed.

(** No product shares its endpoint with the collection. *)
Lemma resource_endpoint_not_collection id :
  resource_endpoint id <> collection_endpoint.
Proof.
  unfold resource_endpoint, collection_endpoint. simpl. intros [= H].
  destruct (ToString_Z id); discriminate.
Qed.

(** ** Traces *)

Lemma requests_app a b : requests (a ++ b) = (requests a ++ requests b)%list.
Proof.
  induction a as [|[|r|msg e|e] a IH]; simpl; [reflexivity|..];
    now rewrite ?IH.
Qed.

Lemma diagnostics_app a b :
  diagnostics (a ++ b) = (diagnostics a ++ diagnostics b)%list.
Proof.
  induction a as [|[|r|msg e|e] a IH]; simpl; [reflexivity|..];
    now rewrite ?IH.
Qed.

Lemma skipn_length_app {A} (l l' : list A) :
  skipn (List.length l) (l ++ l') = l'.
Proof. induction l as [|x l IH]; simpl; [reflexivity | exact IH]. Qed.

Lemma issued_extend w st evs :
  issued w (mkWorld st (trace w ++ evs)) = requests evs.
Proof. unfold issued, sent. simpl. rewrite requests_app. apply skipn_length_app. Qed.

Lemma logged_extend w st evs :
  logged w (mkWorld st (trace w ++ evs)) = diagnostics evs.
Proof. unfold logged. simpl. rewrite diagnostics_app. apply skipn_length_app. Qed.

(** ** What each handler does to the world *)

Lemma fetchProducts_run net w :
  fetchProducts net w =
  (Normal tt,
   match net (sent w) fetch_request with
   | Resolved data =>
       mkWorld (mkHome data (formData (state w)) (editingId (state w)))
         (trace w ++ [Http fetch_request])
   | Rejected e =>
       mkWorld (state w)
         (trace w ++ [Http fetch_request;
                      ConsoleError "Gagal mengambil data produk:" e])
   end).
Proof.
  unfold fetchProducts, try_catch, bind, apiClient.get, await, setProducts,
    modify, console_error, emit, fetch_request, collection_endpoint.
  destruct (net (sent w) _) as [data|e]; simpl; [reflexivity|].
  now rewrite <- app_assoc.
Qed.

Lemma rejections_app a b :
  rejections (a ++ b) = (rejections a ++ rejections b)%list.
Proof.
  induction a as [|[|r|msg e|e] a IH]; simpl; [reflexivity|..];
    now rewrite ?IH.
Qed.

(** [fetchProducts] settles its own failures, so calling it un-awaited
    never leaves a rejected promise behind. *)
Lemma detached_fetchProducts net w :
  detached fetchProducts net w = (Normal tt, snd (fetchProducts net w)).
Proof. unfold detached. now rewrite fetchProducts_run. Qed.

Lemma sent_emit w ev :
  requests [ev] = [] ->
  sent (mkWorld (state w) (trace w ++ [ev])) = sent w.
Proof.
  intros H. unfold sent. simpl. rewrite requests_app, H. now rewrite app_nil_r.
Qed.

Lemma handleSubmit_run net w :
  fire handleSubmit net w = (Normal tt, snd (fetchProducts net (submitted net w))).
Proof.
  unfold fire, handleSubmit, submitted, submit_request, submit_diagnostic.
  unfold bind at 1. unfold preventDefault, emit.
  destruct w as [st tr]. cbn [state trace].
  destruct (ToBoolean_id (editingId st)).
  - unfold bind, try_catch, apiClient.put, await, setEditingId, setFormData,
      modify, console_error, emit.
    cbn [state trace].
    pose proof (sent_emit (mkWorld st tr) PreventDefault eq_refl) as Hs.
    cbn [state trace] in Hs. rewrite Hs.
    destruct (net _ _) as [data|e]; cbn -[fetchProducts detached];
      now rewrite detached_fetchProducts, <- ?app_assoc.
  - unfold bind, try_catch, apiClient.post, await, setFormData, ret,
      modify, console_error, emit.
    cbn [state trace].
    pose proof (sent_emit (mkWorld st tr) PreventDefault eq_refl) as Hs.
    cbn [state trace] in Hs. rewrite Hs.
    destruct (net _ _) as [data|e]; cbn -[fetchProducts detached];
      now rewrite detached_fetchProducts, <- ?app_assoc.
Qed.

Lemma handleDelete_run id net w :
  handleDelete id net w =
  (Normal tt,
   match net (sent w) (delete_request id) with
   | Resolved _ =>
       snd (fetchProducts net
              (mkWorld (state w) (trace w ++ [Http (delete_request id)])))
   | Rejected e =>
       mkWorld (state w)
         (trace w ++ [Http (delete_request id);
                      ConsoleError "Gagal menghapus produk:" e])
   end).
Proof.
  unfold handleDelete, delete_request, resource_endpoint, try_catch, bind,
    apiClient.delete, await, console_error, emit.
  destruct (net (sent w) _) as [data|e]; cbn -[fetchProducts detached];
    rewrite ?detached_fetchProducts; now rewrite <- ?app_assoc.
Qed.

Lemma handleEdit_run product net w :
  handleEdit product net w =
  (Normal tt,
   mkWorld
     (mkHome (products (state w))
        (Form.mk (Product.name product)
           (or_string (Product.description product) "")
           (String_of_string (Product.price product)))
        (Some (Product.id product)))
     (trace w)).
Proof. reflexivity. Qed.

(** A fetch adds its request and, at most, a diagnostic; it leaves the form
    and the editing target alone. *)
Lemma fetchProducts_frame net w :
  exists st' evs,
    snd (fetchProducts net w) = mkWorld st' (trace w ++ Http fetch_request :: evs)
    /\ requests evs = []
    /\ formData st' = formData (state w)
    /\ editingId st' = editingId (state w).
Proof.
  rewrite fetchProducts_run. cbn [snd].
  destruct (net (sent w) fetch_request) as [data|e]; eauto 10.
Qed.

(** The same, seen from a world [w0] the run started in. *)
Lemma issued_after_fetch net w0 st evs :
  issued w0 (snd (fetchProducts net (mkWorld st (trace w0 ++ evs)))) =
  (requests evs ++ [fetch_request])%list.
Proof.
  destruct (fetchProducts_frame net (mkWorld st (trace w0 ++ evs)))
    as (st' & evs' & -> & Hreq & _).
  cbn [trace]. rewrite <- app_assoc, issued_extend, requests_app.
  cbn [requests]. now rewrite Hreq.
Qed.

Lemma logged_after_fetch net w0 st evs :
  exists rest,
    logged w0 (snd (fetchProducts net (mkWorld st (trace w0 ++ evs)))) =
    (diagnostics evs ++ rest)%list.
Proof.
  destruct (fetchProducts_frame net (mkWorld st (trace w0 ++ evs)))
    as (st' & evs' & -> & _).
  cbn [trace]. rewrite <- app_assoc, logged_extend, diagnostics_app.
  now eexists.
Qed.

(** ** [fetchProducts] *)

(** C3. When the fetch succeeds the local collection becomes exactly the
    array the server returned, same order, nothing dropped or added; when it
    fails the whole state, the collection included, stays as it was and one
    diagnostic is emitted.  Either way exactly one GET is issued. *)
Theorem fetchProducts_replaces_or_keeps (net : Network) (w : World) :
  let w' := snd (fetchProducts net w) in
  issued w w' = [fetch_request]
  /\ match net (sent w) fetch_request with
     | Resolved data => products (state w') = data /\ logged w w' = []
     | Rejected _ =>
         state w' = state w
         /\ logged w w' = ["Gagal mengambil data produk:"]
     end.
Proof.
  cbn zeta. rewrite fetchProducts_run. cbn [snd].
  destruct (net (sent w) fetch_request) as [data|e];
    rewrite issued_extend, logged_extend; cbn; auto.
Qed.

(** ** [handleSubmit] *)

(** The state a submission ends in, whatever the re-fetch does. *)
Lemma handleSubmit_state net w :
  let w' := snd (fire handleSubmit net w) in
  formData (state w') = formData (state (submitted net w))
  /\ editingId (state w') = editingId (state (submitted net w)).
Proof.
  cbn zeta. rewrite handleSubmit_run. cbn [snd].
  destruct (fetchProducts_frame net (submitted net w))
    as (st' & evs & -> & _ & Hf & He). cbn [state]. auto.
Qed.

(** The requests of a submission: the create or update, then the
    re-fetch. *)
Lemma handleSubmit_issued net w :
  issued w (snd (fire handleSubmit net w)) =
  [submit_request (state w); fetch_request].
Proof.
  rewrite handleSubmit_run. cbn [snd]. unfold submitted.
  destruct (net (sent w) _) as [data|e]; now rewrite issued_after_fetch.
Qed.

Lemma handleSubmit_returns net w : fst (fire handleSubmit net w) = Normal tt.
Proof. now rewrite handleSubmit_run. Qed.

(** C1, amended. For every non-zero id, a submission made while
    [editingId] is that id issues exactly one PUT, to that id's endpoint
    and followed only by the re-fetch; [editingId] goes back to [null] when
    the PUT succeeds and keeps the id when it fails. *)
Theorem submit_editing_updates (net : Network) (w : World) (id : Z) :
  id <> 0 ->
  editingId (state w) = Some id ->
  let r := mkRequest PUT (resource_endpoint id)
             (Some (submissionData (state w))) in
  let w' := snd (fire handleSubmit net w) in
  issued w w' = [r; fetch_request]
  /\ match net (sent w) r with
     | Resolved _ => editingId (state w') = None
     | Rejected _ => editingId (state w') = Some id
     end.
Proof.
  intros Hid He. cbn zeta.
  assert (Hreq : submit_request (state w) =
                 mkRequest PUT (resource_endpoint id)
                   (Some (submissionData (state w)))).
  { unfold submit_request. rewrite He. cbn [ToBoolean_id ToString_id].
    apply Z.eqb_neq in Hid. now rewrite Hid. }
  split.
  - now rewrite handleSubmit_issued, Hreq.
  - destruct (handleSubmit_state net w) as [_ ->].
    unfold submitted. rewrite Hreq.
    destruct (net (sent w) _) as [data|e]; cbn [state editingId].
    + rewrite He. cbn [ToBoolean_id]. apply Z.eqb_neq in Hid. now rewrite Hid.
    + exact He.
Qed.

Lemma submit_editing_updates_witness :
  1 <> 0
  /\ editingId (state (editing 1 "2")) = Some 1
  /\ issued (editing 1 "2") (snd (fire handleSubmit online (editing 1 "2"))) =
     [mkRequest PUT "/products/1/" (Some (Payload.mk "Pen" "" (Dec false 2 0)));
      fetch_request]
  /\ editingId (state (snd (fire handleSubmit online (editing 1 "2")))) = None.
Proof.
  split; [lia|]. split; [reflexivity|].
  apply (submit_editing_updates online (editing 1 "2") 1); [lia | reflexivity].
Defined.

(** C1 as stated fails: when the PUT is rejected, [editingId] is still the
    id afterwards. *)
Lemma submit_editing_failure_keeps_target :
  editingId (state (editing 1 "2")) = Some 1
  /\ issued (editing 1 "2") (snd (fire handleSubmit offline (editing 1 "2"))) =
     [mkRequest PUT "/products/1/" (Some (Payload.mk "Pen" "" (Dec false 2 0)));
      fetch_request]
  /\ editingId (state (snd (fire handleSubmit offline (editing 1 "2")))) <> None.
Proof. repeat split; discriminate. Qed.

(** C4. A submission made while [editingId] is [null] issues exactly one
    POST, to the collection endpoint and followed only by the re-fetch;
    whether the POST succeeds or fails, the form ends up empty and
    [editingId] is still [null]. *)
Theorem submit_browsing_creates (net : Network) (w : World) :
  editingId (state w) = None ->
  let w' := snd (fire handleSubmit net w) in
  issued w w' =
    [mkRequest POST collection_endpoint (Some (submissionData (state w)));
     fetch_request]
  /\ formData (state w') = Form.mk "" "" ""
  /\ editingId (state w') = None.
Proof.
  intros He. cbn zeta.
  rewrite handleSubmit_issued.
  destruct (handleSubmit_state net w) as [-> ->].
  unfold submit_request, submitted. rewrite He. cbn [ToBoolean_id].
  destruct (net (sent w) _) as [data|e]; cbn [state formData editingId]; auto.
Qed.

Lemma submit_browsing_creates_witness :
  editingId (state fresh) = None
  /\ issued fresh (snd (fire handleSubmit offline fresh)) =
     [mkRequest POST "/products/" (Some (Payload.mk "" "" zero));
      fetch_request]
  /\ formData (state (snd (fire handleSubmit offline fresh))) = Form.mk "" "" ""
  /\ editingId (state (snd (fire handleSubmit offline fresh))) = None.
Proof.
  split; [reflexivity|].
  apply (submit_browsing_creates offline fresh). reflexivity.
Defined.

(** C5. In every state, when the request of a submission is rejected: the
    handler still returns normally, [editingId] is what it was, the form is
    reset to empty, the re-fetch is still issued, and the failure shows
    only as a diagnostic. *)
Theorem submit_failure_swallowed (net : Network) (w : World) (e : AxiosError) :
  net (sent w) (submit_request (state w)) = Rejected e ->
  let w' := snd (fire handleSubmit net w) in
  fst (fire handleSubmit net w) = Normal tt
  /\ editingId (state w') = editingId (state w)
  /\ formData (state w') = Form.mk "" "" ""
  /\ issued w w' = [submit_request (state w); fetch_request]
  /\ hd_error (logged w w') = Some (submit_diagnostic (state w)).
Proof.
  intros Hrej. cbn zeta.
  split; [apply handleSubmit_returns|].
  destruct (handleSubmit_state net w) as [-> ->].
  rewrite handleSubmit_issued, handleSubmit_run. cbn [snd].
  unfold submitted. rewrite Hrej. cbn [state formData editingId].
  repeat split.
  destruct (logged_after_fetch net w
              (mkHome (products (state w)) empty_form (editingId (state w)))
              [PreventDefault; Http (submit_request (state w));
               ConsoleError (submit_diagnostic (state w)) e]) as [rest ->].
  reflexivity.
Qed.

Lemma submit_failure_swallowed_witness :
  offline (sent (editing 1 "2")) (submit_request (state (editing 1 "2")))
  = Rejected NetworkError
  /\ fst (fire handleSubmit offline (editing 1 "2")) = Normal tt
  /\ editingId (state (snd (fire handleSubmit offline (editing 1 "2")))) = Some 1
  /\ formData (state (snd (fire handleSubmit offline (editing 1 "2"))))
     = Form.mk "" "" ""
  /\ issued (editing 1 "2") (snd (fire handleSubmit offline (editing 1 "2")))
     = [submit_request (state (editing 1 "2")); fetch_request]
  /\ hd_error (logged (editing 1 "2")
                 (snd (fire handleSubmit offline (editing 1 "2"))))
     = Some "Gagal mengupdate produk:".
Proof.
  split; [reflexivity|].
  apply (submit_failure_swallowed offline (editing 1 "2") NetworkError).
  reflexivity.
Defined.

(** C7, amended. When the price text of the form is empty or does not
    begin, after leading white space, with a decimal literal, the request a
    submission sends carries the form's name and description and the
    numeric price [0]. *)
Theorem submit_unparsable_price_zero (net : Network) (w : World) :
  Form.price (formData (state w)) = ""
  \/ no_leading_number (Form.price (formData (state w))) ->
  let w' := snd (fire handleSubmit net w) in
  issued w w' = [submit_request (state w); fetch_request]
  /\ body (submit_request (state w)) =
     Some (Payload.mk (Form.name (formData (state w)))
             (Form.description (formData (state w))) zero).
Proof.
  intros Hprice. cbn zeta. split; [apply handleSubmit_issued|].
  assert (Hnan : parseFloat (Form.price (formData (state w))) = NaN).
  { destruct Hprice as [-> | Hnn]; [apply parseFloat_empty|].
    now apply parseFloat_NaN. }
  unfold submit_request, submissionData. rewrite Hnan.
  now destruct (ToBoolean_id (editingId (state w))).
Qed.

Lemma submit_unparsable_price_zero_witness :
  (Form.price (formData (state (editing 1 "abc"))) = ""
   \/ no_leading_number (Form.price (formData (state (editing 1 "abc")))))
  /\ issued (editing 1 "abc") (snd (fire handleSubmit online (editing 1 "abc")))
     = [mkRequest PUT "/products/1/" (Some (Payload.mk "Pen" "" zero));
        fetch_request]
  /\ body (submit_request (state (editing 1 "abc")))
     = Some (Payload.mk "Pen" "" zero).
Proof.
  split; [right; reflexivity|].
  apply (submit_unparsable_price_zero online (editing 1 "abc")).
  right. reflexivity.
Defined.

(** C7 as stated fails: ["12abc"] and ["1,5"] are not numeric text, yet the
    submission sends the number they begin with, [12] and [1], not [0]. *)
Lemma submit_leading_number_is_sent :
  numeric_text "12abc" = false
  /\ issued (editing 1 "12abc") (snd (fire handleSubmit online (editing 1 "12abc")))
     = [mkRequest PUT "/products/1/" (Some (Payload.mk "Pen" "" (Dec false 12 0)));
        fetch_request]
  /\ Dec false 12 0 <> zero
  /\ numeric_text "1,5" = false
  /\ issued (editing 0 "1,5") (snd (fire handleSubmit online (editing 0 "1,5")))
     = [mkRequest POST "/products/" (Some (Payload.mk "Pen" "" (Dec false 1 0)));
        fetch_request]
  /\ Dec false 1 0 <> zero.
Proof. repeat split; discriminate. Qed.

(** C10. When the product being edited has id [0], a submission issues a
    POST to the collection endpoint and no PUT: the test on [editingId] is
    a truthiness test, and [0] is falsy. *)
Theorem submit_editing_zero_creates (net : Network) (w : World) :
  editingId (state w) = Some 0 ->
  let w' := snd (fire handleSubmit net w) in
  issued w w' =
    [mkRequest POST collection_endpoint (Some (submissionData (state w)));
     fetch_request]
  /\ filter (with_method PUT) (issued w w') = [].
Proof.
  intros He. cbn zeta. rewrite handleSubmit_issued.
  unfold submit_request. rewrite He. cbn. auto.
Qed.

Lemma submit_editing_zero_creates_witness :
  editingId (state (editing 0 "2")) = Some 0
  /\ issued (editing 0 "2") (snd (fire handleSubmit online (editing 0 "2")))
     = [mkRequest POST "/products/" (Some (Payload.mk "Pen" "" (Dec false 2 0)));
        fetch_request]
  /\ filter (with_method PUT)
       (issued (editing 0 "2") (snd (fire handleSubmit online (editing 0 "2"))))
     = [].
Proof.
  split; [reflexivity|].
  apply (submit_editing_zero_creates online (editing 0 "2")). reflexivity.
Defined.

(** ** [handleDelete] *)

(** C2, amended. For every id, [handleDelete id] issues exactly one DELETE,
    to that id's endpoint.  When the DELETE succeeds it is followed by
    exactly one fetch of the collection; when it fails nothing else is
    issued and one diagnostic is emitted. *)
Theorem delete_fetches_on_success (id : Z) (net : Network) (w : World) :
  let w' := snd (handleDelete id net w) in
  match net (sent w) (delete_request id) with
  | Resolved _ => issued w w' = [delete_request id; fetch_request]
  | Rejected _ =>
      issued w w' = [delete_request id]
      /\ logged w w' = ["Gagal menghapus produk:"]
  end.
Proof.
  cbn zeta. rewrite handleDelete_run. cbn [snd].
  destruct (net (sent w) (delete_request id)) as [data|e].
  - now rewrite issued_after_fetch.
  - now rewrite issued_extend, logged_extend.
Qed.

(** C2 as stated fails: after a rejected DELETE no fetch is issued. *)
Lemma delete_failure_no_fetch :
  issued fresh (snd (handleDelete 7 offline fresh)) =
    [mkRequest DELETE "/products/7/" None]
  /\ filter (with_method GET) (issued fresh (snd (handleDelete 7 offline fresh)))
     = [].
Proof. split; reflexivity. Qed.

(** C9. For every id, [handleDelete id] leaves [editingId] as it was,
    whether or not [id] is the product being edited and whatever the
    outcome of the DELETE and of the fetch; the form is left alone too. *)
Theorem delete_keeps_editing_target (id : Z) (net : Network) (w : World) :
  let w' := snd (handleDelete id net w) in
  editingId (state w') = editingId (state w)
  /\ formData (state w') = formData (state w).
Proof.
  cbn zeta. rewrite handleDelete_run. cbn [snd].
  destruct (net (sent w) (delete_request id)) as [data|e].
  - destruct (fetchProducts_frame net
                (mkWorld (state w) (trace w ++ [Http (delete_request id)])))
      as (st' & evs & -> & _ & Hf & He).
    cbn [state] in *. auto.
  - cbn [state]. auto.
Qed.

(** Deleting the very product that is being edited keeps it as the
    editing target. *)
Example delete_edited_product :
  editingId (state (snd (handleDelete 1 online (editing 1 "2")))) = Some 1.
Proof. reflexivity. Qed.

(** ** [handleEdit] *)

(** C6. For every product [p] and from any state, [handleEdit p] makes the
    form [{name: p.name, description: p.description ?? "", price:
    String(p.price)}] and sets [editingId] to [p.id]. *)
Theorem handleEdit_fills_form (p : Product.t) (net : Network) (w : World) :
  let w' := snd (handleEdit p net w) in
  formData (state w') =
    Form.mk (Product.name p) (nullish (Product.description p) "")
      (String_of_string (Product.price p))
  /\ editingId (state w') = Some (Product.id p).
Proof.
  cbn zeta. rewrite handleEdit_run. cbn [snd state formData editingId].
  now rewrite or_string_nullish.
Qed.

(** C8, amended. For the product [{id:1, name:"Pen", description:null,
    price:"1.50"}], [handleEdit] makes the form [{name:"Pen",
    description:"", price:"1.50"}]: the price text is copied as it is. *)
Theorem handleEdit_pen (net : Network) (w : World) :
  formData (state (snd (handleEdit pen net w))) = Form.mk "Pen" "" "1.50".
Proof. reflexivity. Qed.

(** C8 as stated fails: the form's price is not ["1.5"]. *)
Lemma handleEdit_pen_not_trimmed :
  formData (state (snd (handleEdit pen online fresh))) <> Form.mk "Pen" "" "1.5".
Proof. discriminate. Qed.

(** ** [handleInputChange] *)

Lemma handleInputChange_run e net w :
  handleInputChange e net w =
  (Normal tt,
   mkWorld
     (mkHome (products (state w))
        (assign (formData (state w)) (ChangeEvent.name e) (ChangeEvent.value e))
        (editingId (state w)))
     (trace w)).
Proof. reflexivity. Qed.

Ltac case_key k :=
  destruct (String.eqb_spec k "name");
  [| destruct (String.eqb_spec k "description");
     [| destruct (String.eqb_spec k "price")]];
  subst; cbn; try congruence.

Lemma field_assign_same form key value :
  In key ["name"; "description"; "price"] ->
  field (assign form key value) key = Some value.
Proof.
  intros [<- | [<- | [<- | []]]]; reflexivity.
Qed.

Lemma field_assign_other form key value key' :
  key' <> key -> field (assign form key value) key' = field form key'.
Proof.
  intros Hne. unfold assign, field.
  case_key key; case_key key'.
Qed.

(** X1. A change writes the value into the field the input is named after and
    into nothing else: the other fields, the product list, the editing
    target and the trace are as before. *)
Theorem input_change_sets_field (e : ChangeEvent.t) (net : Network) (w : World) :
  In (ChangeEvent.name e) ["name"; "description"; "price"] ->
  let w' := snd (handleInputChange e net w) in
  field (formData (state w')) (ChangeEvent.name e) = Some (ChangeEvent.value e)
  /\ (forall key, key <> ChangeEvent.name e ->
        field (formData (state w')) key = field (formData (state w)) key)
  /\ products (state w') = products (state w)
  /\ editingId (state w') = editingId (state w)
  /\ trace w' = trace w.
Proof.
  intros Hin. cbn zeta. rewrite handleInputChange_run.
  cbn [snd state trace formData products editingId].
  split; [now apply field_assign_same|].
  split; [|auto].
  intros key Hne. now apply field_assign_other.
Qed.

Lemma input_change_sets_field_witness :
  In "price" ["name"; "description"; "price"]
  /\ field (formData (state (snd (handleInputChange
                                    (ChangeEvent.mk "price" "12.5") online fresh))))
       "price" = Some "12.5".
Proof.
  split; [simpl; auto|].
  apply (input_change_sets_field (ChangeEvent.mk "price" "12.5") online fresh).
  simpl; auto.
Defined.

Lemma assign_assign_same form key v1 v2 :
  assign (assign form key v1) key v2 = assign form key v2.
Proof. unfold assign. case_key key. Qed.

Lemma assign_assign_comm form k1 v1 k2 v2 :
  k1 <> k2 ->
  assign (assign form k1 v1) k2 v2 = assign (assign form k2 v2) k1 v1.
Proof. intros Hne. unfold assign. case_key k1; case_key k2. Qed.

(** X2. Two changes made from the same render are both kept: the updater form
    of [setFormData] works on the latest form, so changes to different
    inputs end in the same form in either order. *)
Theorem input_changes_commute (e1 e2 : ChangeEvent.t) (net : Network) (w : World) :
  ChangeEvent.name e1 <> ChangeEvent.name e2 ->
  snd (handleInputChange e2 net (snd (handleInputChange e1 net w))) =
  snd (handleInputChange e1 net (snd (handleInputChange e2 net w))).
Proof.
  intros Hne. rewrite !handleInputChange_run.
  cbn [snd state trace formData products editingId].
  now rewrite assign_assign_comm.
Qed.

Lemma input_changes_commute_witness :
  ChangeEvent.name (ChangeEvent.mk "name" "Ink") <>
  ChangeEvent.name (ChangeEvent.mk "price" "3")
  /\ snd (handleInputChange (ChangeEvent.mk "price" "3") online
            (snd (handleInputChange (ChangeEvent.mk "name" "Ink") online fresh)))
     = snd (handleInputChange (ChangeEvent.mk "name" "Ink") online
              (snd (handleInputChange (ChangeEvent.mk "price" "3") online fresh))).
Proof.
  split; [discriminate|].
  apply (input_changes_commute (ChangeEvent.mk "name" "Ink")
           (ChangeEvent.mk "price" "3") online fresh).
  discriminate.
Defined.

(** X3. A second change to the same input replaces the first. *)
Theorem input_change_last_wins (e1 e2 : ChangeEvent.t) (net : Network) (w : World) :
  ChangeEvent.name e1 = ChangeEvent.name e2 ->
  snd (handleInputChange e2 net (snd (handleInputChange e1 net w))) =
  snd (handleInputChange e2 net w).
Proof.
  intros Heq. rewrite !handleInputChange_run.
  cbn [snd state trace formData products editingId].
  now rewrite Heq, assign_assign_same.
Qed.

Lemma input_change_last_wins_witness :
  ChangeEvent.name (ChangeEvent.mk "price" "1") =
  ChangeEvent.name (ChangeEvent.mk "price" "12")
  /\ snd (handleInputChange (ChangeEvent.mk "price" "12") online
            (snd (handleInputChange (ChangeEvent.mk "price" "1") online fresh)))
     = snd (handleInputChange (ChangeEvent.mk "price" "12") online fresh).
Proof.
  split; [reflexivity|].
  apply (input_change_last_wins (ChangeEvent.mk "price" "1")
           (ChangeEvent.mk "price" "12") online fresh).
  reflexivity.
Defined.

(** ** From the inputs to the request *)

(** X4. What is typed into the price input is what the next submission parses:
    the request keeps the verb and the address the state called for, with
    the name and description of the form and the typed price as a number,
    [0] when it does not parse. *)
Theorem typed_price_is_submitted (v : string) (net : Network) (w : World) :
  let w1 := snd (handleInputChange (ChangeEvent.mk "price" v) net w) in
  let w2 := snd (fire handleSubmit net w1) in
  issued w w2 =
    [mkRequest (method (submit_request (state w)))
       (url (submit_request (state w)))
       (Some (Payload.mk (Form.name (formData (state w)))
                (Form.description (formData (state w)))
                (or_number (parseFloat v) zero)));
     fetch_request].
Proof.
  cbn zeta. rewrite handleInputChange_run. cbn [snd].
  set (w1 := mkWorld _ (trace w)).
  assert (Hi : issued w (snd (fire handleSubmit net w1)) =
               issued w1 (snd (fire handleSubmit net w1))) by reflexivity.
  rewrite Hi, handleSubmit_issued. unfold submit_request, submissionData.
  subst w1. cbn [state formData editingId assign].
  now destruct (ToBoolean_id (editingId (state w))).
Qed.

(** ** Prices typed as integers *)

Lemma digits_chars d : forall d' cnt,
  exists k, digits (chars d) (Unsigned.of_lu d') cnt =
            (Unsigned.of_lu (Decimal.revapp d d'), k, []).
Proof.
  induction d as [|d IH|d IH|d IH|d IH|d IH|d IH|d IH|d IH|d IH|d IH];
    intros d' cnt; [now exists cnt | ..];
    unfold chars; cbn [NilEmpty.string_of_uint list_ascii_of_string digits];
    change (is_digit _) with true; cbn iota; cbn [Decimal.revapp];
    match goal with
    | |- context [Decimal.revapp d (?D d')] =>
        match goal with
        | |- context [digit_val ?c] =>
            let v := eval vm_compute in (digit_val c) in
            change (digit_val c) with v;
            replace (Unsigned.of_lu d' * 10 + v)%N with (Unsigned.of_lu (D d'))
              by (cbn [Unsigned.of_lu]; lia)
        end
    end; apply IH.
Qed.

Lemma chars_head d :
  d <> Decimal.Nil ->
  exists c rest, chars d = c :: rest /\ is_digit c = true.
Proof.
  destruct d; [congruence | ..]; intros _; eexists; eexists; split;
    reflexivity.
Qed.

Lemma digit_plain c :
  is_digit c = true ->
  is_white_space c = false /\ is_char "-" c = false /\ is_char "+" c = false
  /\ is_char "I" c = false.
Proof.
  unfold is_digit, is_white_space, is_char. intros H.
  apply andb_true_iff in H as [H1 H2].
  apply N.leb_le in H1. apply N.leb_le in H2.
  change (code "-") with 45%N. change (code "+") with 43%N.
  change (code "I") with 73%N.
  repeat split; repeat (apply orb_false_iff; split); apply N.eqb_neq; lia.
Qed.

(** A whole number up to [2^53] in size is a binary64 as it stands. *)
Lemma to_double_integer neg m :
  Z.of_N m <= 2 ^ 53 -> to_double neg m 0 = Dec neg m 0.
Proof.
  intros Hm. unfold to_double.
  destruct (N.eqb_spec m 0) as [-> | Hnz]; [reflexivity|].
  assert (Hov : overflows m 0 = false).
  { unfold overflows. change (0 <=? 0) with true. cbv beta iota zeta.
    apply Z.leb_gt. rewrite Z.pow_0_r, Z.mul_1_r.
    apply Z.le_lt_trans with (2 ^ 53); [exact Hm|].
    vm_compute. reflexivity. }
  now rewrite Hov.
Qed.

Lemma unsigned_literal_uint neg d :
  d <> Decimal.Nil ->
  Z.of_N (Pos.of_uint d) <= 2 ^ 53 ->
  unsigned_literal neg (chars d) = Dec neg (Pos.of_uint d) 0.
Proof.
  intros Hd Hsafe. destruct (chars_head d Hd) as (c & rest & Hc & Hdig).
  destruct (digit_plain c Hdig) as (_ & _ & _ & HI).
  unfold unsigned_literal.
  assert (Hinf : starts_with (list_ascii_of_string "Infinity") (chars d) = false).
  { rewrite Hc. cbn [list_ascii_of_string starts_with]. now rewrite HI. }
  rewrite Hinf.
  destruct (digits_chars d Decimal.Nil 0%nat) as [k Hk].
  cbn [Unsigned.of_lu] in Hk.
  pose proof (digits_digit c rest 0%N Hdig) as (v & k' & r & Hk').
  rewrite <- Hc, Hk in Hk'. injection Hk' as <- -> <-.
  rewrite Hk. cbv beta iota.
  change (Decimal.revapp d Decimal.Nil) with (Decimal.rev d).
  rewrite <- Unsigned.of_uint_alt. now apply to_double_integer.
Qed.

Lemma parseFloat_ToString_Z n :
  Z.abs n <= 2 ^ 53 ->
  parseFloat (ToString_Z n) = Dec (n <? 0) (Z.abs_N n) 0.
Proof.
  intros Hsafe. unfold parseFloat, ToString_Z.
  destruct n as [|p|p]; [reflexivity | |].
  - cbn [Z.to_int NilZero.string_of_int].
    pose proof (Unsigned.to_uint_nonnil p) as Hnn.
    assert (Hs : NilZero.string_of_uint (Pos.to_uint p) =
                 NilEmpty.string_of_uint (Pos.to_uint p)).
    { now destruct (Pos.to_uint p). }
    rewrite Hs. fold (chars (Pos.to_uint p)).
    destruct (chars_head _ Hnn) as (c & rest & Hc & Hdig).
    destruct (digit_plain c Hdig) as (Hw & Hm & Hp & _).
    assert (Ht : trim_start (chars (Pos.to_uint p)) = chars (Pos.to_uint p)).
    { rewrite Hc. cbn [trim_start]. now rewrite Hw. }
    rewrite Ht. unfold signed_literal. rewrite Hc, Hm, Hp, <- Hc.
    rewrite unsigned_literal_uint;
      [now rewrite Unsigned.of_to | assumption
       | now rewrite Unsigned.of_to].
  - cbn [Z.to_int NilZero.string_of_int].
    pose proof (Unsigned.to_uint_nonnil p) as Hnn.
    assert (Hs : NilZero.string_of_uint (Pos.to_uint p) =
                 NilEmpty.string_of_uint (Pos.to_uint p)).
    { now destruct (Pos.to_uint p). }
    rewrite Hs. cbn [list_ascii_of_string]. fold (chars (Pos.to_uint p)).
    cbn [trim_start]. change (is_white_space "-") with false. cbn iota.
    unfold signed_literal. change (is_char "-" "-") with true. cbn iota.
    rewrite unsigned_literal_uint;
      [now rewrite Unsigned.of_to | assumption
       | now rewrite Unsigned.of_to].
Qed.

(** X5. A price typed as a whole number in decimal digits, with a minus sign
    when negative, and no larger than [2^53] in size, is sent as exactly
    that number: the digits survive [parseFloat], a binary64 holds every
    such integer, and [|| 0] changes nothing, zero included. *)
Theorem integer_price_is_sent_exactly (n : Z) (net : Network) (w : World) :
  Z.abs n <= 2 ^ 53 ->
  Form.price (formData (state w)) = ToString_Z n ->
  let w' := snd (fire handleSubmit net w) in
  exists r,
    issued w w' = [r; fetch_request]
    /\ option_map Payload.price (body r) = Some (Dec (n <? 0) (Z.abs_N n) 0).
Proof.
  intros Hsafe Hprice. cbn zeta. exists (submit_request (state w)).
  split; [apply handleSubmit_issued|].
  assert (Hp : Payload.price (submissionData (state w)) =
               Dec (n <? 0) (Z.abs_N n) 0).
  { unfold submissionData. cbn [Payload.price].
    rewrite Hprice, parseFloat_ToString_Z by assumption. now destruct n. }
  unfold submit_request.
  destruct (ToBoolean_id (editingId (state w))); cbn [body option_map];
    now rewrite Hp.
Qed.

(** Past the range of binary64 the same digits are sent as an infinity. *)
Example huge_price_is_infinite :
  parseFloat (ToString_Z (2 * 10 ^ 308)) = Infinity false.
Proof. vm_compute. reflexivity. Qed.

Lemma integer_price_is_sent_exactly_witness :
  Z.abs (-42) <= 2 ^ 53
  /\ Form.price (formData (state (editing 1 "-42"))) = ToString_Z (-42)
  /\ exists r,
       issued (editing 1 "-42") (snd (fire handleSubmit online (editing 1 "-42")))
       = [r; fetch_request]
       /\ option_map Payload.price (body r) = Some (Dec true 42 0).
Proof.
  split; [discriminate|]. split; [reflexivity|].
  apply (integer_price_is_sent_exactly (-42) online (editing 1 "-42"));
    [discriminate | reflexivity].
Defined.

(** ** Editing a product and sending it back *)

Lemma submit_request_update st id :
  id <> 0 ->
  editingId st = Some id ->
  submit_request st =
  mkRequest PUT (resource_endpoint id) (Some (submissionData st)).
Proof.
  intros Hid He. unfold submit_request. rewrite He.
  cbn [ToBoolean_id ToString_id]. apply Z.eqb_neq in Hid. now rewrite Hid.
Qed.

Lemma submitted_update_state net w id :
  id <> 0 ->
  editingId (state w) = Some id ->
  formData (state (submitted net w)) = empty_form
  /\ editingId (state (submitted net w)) =
     match net (sent w) (submit_request (state w)) with
     | Resolved _ => None
     | Rejected _ => Some id
     end.
Proof.
  intros Hid He. unfold submitted.
  destruct (net (sent w) _) as [data|e]; cbn [state formData editingId];
    split; auto.
  rewrite He. cbn [ToBoolean_id]. apply Z.eqb_neq in Hid. now rewrite Hid.
Qed.

(** X6. Pressing Edit on a product and submitting the form as it was filled
    sends one PUT to that product's endpoint (the id being non-zero).  The
    payload is the product's name, its description with [null] turned into
    the empty string, and its price text parsed to a number; a [null]
    description therefore goes back as [""].  The form ends up empty, and
    the page leaves edit mode exactly when the PUT succeeded. *)
Theorem edit_then_submit (p : Product.t) (net : Network) (w : World) :
  Product.id p <> 0 ->
  let w1 := snd (handleEdit p net w) in
  let w2 := snd (fire handleSubmit net w1) in
  let r := mkRequest PUT (resource_endpoint (Product.id p))
             (Some (Payload.mk (Product.name p)
                      (or_string (Product.description p) "")
                      (or_number (parseFloat (Product.price p)) zero))) in
  issued w w2 = [r; fetch_request]
  /\ formData (state w2) = Form.mk "" "" ""
  /\ editingId (state w2) =
     match net (sent w) r with
     | Resolved _ => None
     | Rejected _ => Some (Product.id p)
     end.
Proof.
  intros Hid. cbn zeta. rewrite handleEdit_run. cbn [snd].
  set (w1 := mkWorld _ (trace w)).
  assert (He : editingId (state w1) = Some (Product.id p)) by reflexivity.
  assert (Hi : issued w (snd (fire handleSubmit net w1)) =
               issued w1 (snd (fire handleSubmit net w1))) by reflexivity.
  pose proof (submit_request_update (state w1) _ Hid He) as Hreq.
  destruct (handleSubmit_state net w1) as [Hf Hed].
  destruct (submitted_update_state net w1 _ Hid He) as [Hf' Hed'].
  rewrite Hi, handleSubmit_issued, Hf, Hed, Hf', Hed', Hreq.
  repeat split.
Qed.

Lemma edit_then_submit_witness :
  Product.id pen <> 0
  /\ issued fresh (snd (fire handleSubmit online (snd (handleEdit pen online fresh))))
     = [mkRequest PUT "/products/1/" (Some (Payload.mk "Pen" "" (Dec false 150 (-2))));
        fetch_request]
  /\ formData (state (snd (fire handleSubmit online
                             (snd (handleEdit pen online fresh)))))
     = Form.mk "" "" ""
  /\ editingId (state (snd (fire handleSubmit online
                              (snd (handleEdit pen online fresh)))))
     = None.
Proof.
  split; [discriminate|].
  apply (edit_then_submit pen online fresh). discriminate.
Defined.

(** X7. The title of the form and the label of its button always announce the
    request a submission will send: "Edit Produk" and "Update Produk" go
    with a PUT to the endpoint of the product being edited, "Tambah Produk
    Baru" and "Simpan Produk" with a POST to the collection.  All three
    rest on the same truthiness test, so id [0] is announced, and sent, as
    a new product. *)
Theorem labels_announce_request (net : Network) (w : World) :
  let v := view (state w) in
  let w' := snd (onSubmit v net w) in
  (heading v = "Edit Produk"
   /\ button v = "Update Produk"
   /\ exists id,
        editingId (state w) = Some id /\ id <> 0
        /\ issued w w' =
           [mkRequest PUT (resource_endpoint id)
              (Some (submissionData (state w)));
            fetch_request])
  \/ (heading v = "Tambah Produk Baru"
      /\ button v = "Simpan Produk"
      /\ issued w w' =
         [mkRequest POST collection_endpoint
            (Some (submissionData (state w)));
          fetch_request]).
Proof.
  cbn zeta. unfold view. cbn [heading button onSubmit].
  change (handleSubmit (state w) net w) with (fire handleSubmit net w).
  rewrite handleSubmit_issued. unfold submit_request.
  destruct (ToBoolean_id (editingId (state w))) eqn:Hb.
  - left. repeat split.
    destruct (editingId (state w)) as [id|]; [|discriminate].
    exists id. cbn [ToBoolean_id] in Hb.
    apply negb_true_iff, Z.eqb_neq in Hb. auto.
  - right. auto.
Qed.

(** ** Edit mode that outlives its request *)

Lemma run_changes changes : forall net w,
  run (map Change changes) net w =
  (Normal tt,
   mkWorld
     (mkHome (products (state w))
        (fold_left
           (fun form e => assign form (ChangeEvent.name e) (ChangeEvent.value e))
           changes (formData (state w)))
        (editingId (state w)))
     (trace w)).
Proof.
  induction changes as [|e changes IH]; intros net w.
  - now destruct w as [[ps fd eid] tr].
  - cbn [map run]. unfold bind. cbn [dispatch].
    rewrite handleInputChange_run, IH. reflexivity.
Qed.

(** X8. After a rejected update the page is still editing the same product,
    however much is typed afterwards: the next submission is again a PUT to
    that product's endpoint, now carrying what the form holds by then. *)
Theorem failed_update_is_retried_as_update
  (id : Z) (e : AxiosError) (changes : list ChangeEvent.t)
  (net : Network) (w : World) :
  id <> 0 ->
  editingId (state w) = Some id ->
  net (sent w) (submit_request (state w)) = Rejected e ->
  let w1 := snd (fire handleSubmit net w) in
  let w2 := snd (run (map Change changes) net w1) in
  let w3 := snd (fire handleSubmit net w2) in
  issued w2 w3 =
    [mkRequest PUT (resource_endpoint id)
       (Some (submissionData (state w2)));
     fetch_request].
Proof.
  intros Hid He Hrej. cbn zeta.
  set (w1 := snd (fire handleSubmit net w)).
  assert (He1 : editingId (state w1) = Some id).
  { destruct (handleSubmit_state net w) as [_ Hed]. fold w1 in Hed.
    destruct (submitted_update_state net w id Hid He) as [_ Hed'].
    now rewrite Hed, Hed', Hrej. }
  rewrite run_changes. cbn [snd].
  set (w2 := mkWorld _ (trace w1)).
  rewrite handleSubmit_issued.
  now rewrite (submit_request_update (state w2) id Hid He1).
Qed.

Lemma failed_update_is_retried_as_update_witness :
  1 <> 0
  /\ editingId (state (editing 1 "2")) = Some 1
  /\ offline (sent (editing 1 "2")) (submit_request (state (editing 1 "2")))
     = Rejected NetworkError
  /\ issued
       (snd (run (map Change [ChangeEvent.mk "name" "Ink"; ChangeEvent.mk "price" "3"])
               offline (snd (fire handleSubmit offline (editing 1 "2")))))
       (snd (fire handleSubmit offline
               (snd (run (map Change [ChangeEvent.mk "name" "Ink";
                                      ChangeEvent.mk "price" "3"])
                       offline (snd (fire handleSubmit offline (editing 1 "2")))))))
     = [mkRequest PUT "/products/1/" (Some (Payload.mk "Ink" "" (Dec false 3 0)));
        fetch_request].
Proof.
  split; [lia|]. split; [reflexivity|]. split; [reflexivity|].
  apply (failed_update_is_retried_as_update 1 NetworkError
           [ChangeEvent.mk "name" "Ink"; ChangeEvent.mk "price" "3"]
           offline (editing 1 "2")); [lia | reflexivity | reflexivity].
Defined.

Lemma handleDelete_frame id net w :
  formData (state (snd (handleDelete id net w))) = formData (state w)
  /\ editingId (state (snd (handleDelete id net w))) = editingId (state w).
Proof.
  rewrite handleDelete_run. cbn [snd].
  destruct (net (sent w) (delete_request id)) as [data|e]; [|auto].
  destruct (fetchProducts_frame net
              (mkWorld (state w) (trace w ++ [Http (delete_request id)])))
    as (st' & evs & -> & _ & Hf & He).
  cbn [state] in *. auto.
Qed.

(** X9. Deleting the product that is being edited does not end the edit: a
    submission made afterwards still sends a PUT to the endpoint of the
    deleted product, with the form as it was. *)
Theorem delete_then_submit_updates_deleted
  (id : Z) (net : Network) (w : World) :
  id <> 0 ->
  editingId (state w) = Some id ->
  let w1 := snd (handleDelete id net w) in
  let w2 := snd (fire handleSubmit net w1) in
  issued w1 w2 =
    [mkRequest PUT (resource_endpoint id) (Some (submissionData (state w)));
     fetch_request].
Proof.
  intros Hid He. cbn zeta.
  destruct (handleDelete_frame id net w) as [Hf Hed].
  rewrite handleSubmit_issued.
  rewrite (submit_request_update _ id Hid) by now rewrite Hed.
  unfold submissionData. now rewrite Hf.
Qed.

Lemma delete_then_submit_updates_deleted_witness :
  1 <> 0
  /\ editingId (state (editing 1 "2")) = Some 1
  /\ issued (snd (handleDelete 1 online (editing 1 "2")))
       (snd (fire handleSubmit online (snd (handleDelete 1 online (editing 1 "2")))))
     = [mkRequest PUT "/products/1/" (Some (Payload.mk "Pen" "" (Dec false 2 0)));
        fetch_request].
Proof.
  split; [lia|]. split; [reflexivity|].
  apply (delete_then_submit_updates_deleted 1 online (editing 1 "2"));
    [lia | reflexivity].
Defined.

(** ** The buttons of a row *)

Lemma nth_row st i :
  nth_error (rows (view st)) i = option_map row (nth_error (products st) i).
Proof. unfold view. cbn [rows]. apply nth_error_map. Qed.

(** X10. The Edit button of the [i]-th row edits the [i]-th product of the list
    the page holds: the form takes that product's fields and the editing
    target its id, and no request is sent. *)
Theorem click_edit_targets_row
  (i : nat) (p : Product.t) (net : Network) (w : World) :
  nth_error (products (state w)) i = Some p ->
  let w' := snd (dispatch (ClickEdit i) net w) in
  editingId (state w') = Some (Product.id p)
  /\ formData (state w') =
     Form.mk (Product.name p) (or_string (Product.description p) "")
       (Product.price p)
  /\ products (state w') = products (state w)
  /\ trace w' = trace w.
Proof.
  intros Hp. cbn zeta. unfold dispatch. rewrite nth_row, Hp.
  cbn [option_map row Row.onEdit]. rewrite handleEdit_run. auto.
Qed.

Lemma click_edit_targets_row_witness :
  nth_error (products (state (editing 0 ""))) 0 = Some pen
  /\ editingId (state (snd (dispatch (ClickEdit 0) online (editing 0 "")))) = Some 1
  /\ formData (state (snd (dispatch (ClickEdit 0) online (editing 0 ""))))
     = Form.mk "Pen" "" "1.50"
  /\ products (state (snd (dispatch (ClickEdit 0) online (editing 0 ""))))
     = products (state (editing 0 ""))
  /\ trace (snd (dispatch (ClickEdit 0) online (editing 0 "")))
     = trace (editing 0 "").
Proof.
  split; [reflexivity|].
  apply (click_edit_targets_row 0 pen online (editing 0 "")). reflexivity.
Defined.

(** X11. The Hapus button of the [i]-th row sends its DELETE to the endpoint of
    the [i]-th product, and to no other address; the list is fetched again
    exactly when the DELETE succeeded. *)
Theorem click_delete_targets_row
  (i : nat) (p : Product.t) (net : Network) (w : World) :
  nth_error (products (state w)) i = Some p ->
  let w' := snd (dispatch (ClickDelete i) net w) in
  issued w w' =
    delete_request (Product.id p)
    :: match net (sent w) (delete_request (Product.id p)) with
       | Resolved _ => [fetch_request]
       | Rejected _ => []
       end.
Proof.
  intros Hp. cbn zeta. unfold dispatch. rewrite nth_row, Hp.
  cbn [option_map row Row.onDelete]. rewrite handleDelete_run. cbn [snd].
  destruct (net (sent w) _) as [data|e].
  - now rewrite issued_after_fetch.
  - now rewrite issued_extend.
Qed.

Lemma click_delete_targets_row_witness :
  nth_error (products (state (editing 0 ""))) 0 = Some pen
  /\ issued (editing 0 "") (snd (dispatch (ClickDelete 0) online (editing 0 "")))
     = [mkRequest DELETE "/products/1/" None; fetch_request].
Proof.
  split; [reflexivity|].
  apply (click_delete_targets_row 0 pen online (editing 0 "")). reflexivity.
Defined.

(** ** Invariants of a whole session *)

Lemma submissionData_price st : Payload.price (submissionData st) <> NaN.
Proof.
  unfold submissionData, or_number, zero. cbn [Payload.price].
  destruct (parseFloat (Form.price (formData st))) as [|neg|neg m e];
    cbn [ToBoolean_number]; [discriminate | discriminate |].
  destruct (negb (m =? 0)%N); discriminate.
Qed.

Lemma submit_request_api st : api_call (submit_request st).
Proof.
  unfold submit_request.
  destruct (ToBoolean_id (editingId st)) eqn:Hb.
  - destruct (editingId st) as [id|]; [|discriminate].
    cbn [ToBoolean_id] in Hb. apply negb_true_iff, Z.eqb_neq in Hb.
    apply (api_update id); [assumption | apply submissionData_price].
  - apply api_create, submissionData_price.
Qed.

Lemma fetch_step net w :
  reachable net (state w) ->
  exists st' evs,
    snd (fetchProducts net w) = mkWorld st' (trace w ++ evs)
    /\ reachable net st'
    /\ requests evs = [fetch_request]
    /\ rejections evs = [].
Proof.
  intros [Hp He]. rewrite fetchProducts_run. cbn [snd].
  destruct (net (sent w) fetch_request) as [data|e] eqn:Hnet.
  - eexists; eexists; split; [reflexivity|]. split; [|split; reflexivity].
    split; cbn [products editingId]; [|exact He].
    right. now exists (sent w).
  - eexists; eexists; split; [reflexivity|]. split; [|split; reflexivity].
    now split.
Qed.

Lemma submitted_step net w :
  reachable net (state w) ->
  exists st' evs,
    submitted net w = mkWorld st' (trace w ++ evs)
    /\ reachable net st'
    /\ requests evs = [submit_request (state w)]
    /\ rejections evs = [].
Proof.
  intros [Hp He]. unfold submitted.
  destruct (net (sent w) _) as [data|e];
    (eexists; eexists; split; [reflexivity|]; split; [|split; reflexivity]);
    split; cbn [products editingId]; auto.
  destruct (ToBoolean_id (editingId (state w))); auto.
Qed.

(** One action: it completes normally, keeps the state reachable, leaves
    no rejected promise behind, and adds at most two requests, each one a
    call of the API. *)
Lemma dispatch_step a net w :
  reachable net (state w) ->
  exists st' evs,
    dispatch a net w = (Normal tt, mkWorld st' (trace w ++ evs))
    /\ reachable net st'
    /\ Forall api_call (requests evs)
    /\ (List.length (requests evs) <= 2)%nat
    /\ rejections evs = [].
Proof.
  intros Hr. destruct a as [e| |i|i]; unfold dispatch.
  - rewrite handleInputChange_run.
    exists (mkHome (products (state w))
              (assign (formData (state w)) (ChangeEvent.name e)
                 (ChangeEvent.value e))
              (editingId (state w))), [].
    rewrite app_nil_r. repeat split; try apply Hr; auto.
  - cbn [view onSubmit].
    change (handleSubmit (state w) net w) with (fire handleSubmit net w).
    rewrite handleSubmit_run.
    destruct (submitted_step net w Hr)
      as (st1 & evs1 & Hw1 & Hr1 & Hq1 & Hj1).
    rewrite Hw1.
    destruct (fetch_step net (mkWorld st1 (trace w ++ evs1)) Hr1)
      as (st2 & evs2 & Hw2 & Hr2 & Hq2 & Hj2).
    rewrite Hw2. cbn [trace]. rewrite <- app_assoc.
    exists st2, (evs1 ++ evs2)%list. split; [reflexivity|].
    split; [exact Hr2|].
    rewrite requests_app, rejections_app, Hq1, Hq2, Hj1, Hj2.
    split; [|auto]. repeat constructor. apply submit_request_api.
  - rewrite nth_row.
    destruct (nth_error (products (state w)) i) as [p|] eqn:Hp;
      cbn [option_map].
    + cbn [row Row.onEdit]. rewrite handleEdit_run.
      eexists; exists []. rewrite app_nil_r. split; [reflexivity|].
      split; [|split; [constructor | auto]].
      destruct Hr as [Hprod _]. split; cbn [products editingId]; [exact Hprod|].
      right. exists (products (state w)), p.
      apply nth_error_In in Hp.
      destruct Hprod as [Hnil | Hs]; [rewrite Hnil in Hp; contradiction|].
      auto.
    + exists (state w), []. rewrite app_nil_r.
      destruct w as [st tr]. repeat split; try apply Hr; auto.
  - rewrite nth_row.
    destruct (nth_error (products (state w)) i) as [p|] eqn:Hp;
      cbn [option_map].
    + cbn [row Row.onDelete]. rewrite handleDelete_run.
      destruct (net (sent w) (delete_request (Product.id p))) as [data|e].
      * destruct (fetch_step net
                    (mkWorld (state w)
                       (trace w ++ [Http (delete_request (Product.id p))])) Hr)
          as (st2 & evs2 & Hw2 & Hr2 & Hq2 & Hj2).
        rewrite Hw2. cbn [trace]. rewrite <- app_assoc.
        eexists; eexists; split; [reflexivity|]. split; [exact Hr2|].
        cbn [app requests rejections]. rewrite Hq2, Hj2. split; [|auto].
        repeat constructor.
      * eexists; eexists; split; [reflexivity|]. split; [exact Hr|].
        cbn [requests rejections]. split; [|auto]. repeat constructor.
    + exists (state w), []. rewrite app_nil_r.
      destruct w as [st tr]. repeat split; try apply Hr; auto.
Qed.

Lemma run_steps acts : forall net w,
  reachable net (state w) ->
  exists st' evs,
    run acts net w = (Normal tt, mkWorld st' (trace w ++ evs))
    /\ reachable net st'
    /\ Forall api_call (requests evs)
    /\ (List.length (requests evs) <= 2 * List.length acts)%nat
    /\ rejections evs = [].
Proof.
  induction acts as [|a acts IH]; intros net w Hr.
  - exists (state w), []. rewrite app_nil_r. destruct w as [st tr].
    repeat split; try apply Hr; auto.
  - destruct (dispatch_step a net w Hr)
      as (st1 & evs1 & Hd & Hr1 & Ha1 & Hl1 & Hj1).
    destruct (IH net (mkWorld st1 (trace w ++ evs1)) Hr1)
      as (st2 & evs2 & Hrun & Hr2 & Ha2 & Hl2 & Hj2).
    cbn [run]. unfold bind. rewrite Hd, Hrun. cbn [trace].
    rewrite <- app_assoc. exists st2, (evs1 ++ evs2)%list.
    split; [reflexivity|]. split; [exact Hr2|].
    rewrite requests_app, rejections_app, length_app, Hj1, Hj2.
    split; [apply Forall_app; auto|]. split; [|reflexivity].
    cbn [List.length]. lia.
Qed.

Lemma session_steps acts net :
  exists st' evs,
    session acts net fresh = (Normal tt, mkWorld st' evs)
    /\ reachable net st'
    /\ Forall api_call (requests evs)
    /\ (List.length (requests evs) <= 1 + 2 * List.length acts)%nat
    /\ rejections evs = [].
Proof.
  assert (Hr0 : reachable net (state fresh)) by (split; left; reflexivity).
  destruct (fetch_step net fresh Hr0)
    as (st1 & evs1 & Hw1 & Hr1 & Hq1 & Hj1).
  destruct (run_steps acts net (mkWorld st1 (trace fresh ++ evs1)) Hr1)
    as (st2 & evs2 & Hrun & Hr2 & Ha2 & Hl2 & Hj2).
  unfold session, bind, mount. rewrite detached_fetchProducts, Hw1, Hrun.
  cbn [trace fresh app].
  exists st2, (evs1 ++ evs2)%list. split; [reflexivity|]. split; [exact Hr2|].
  rewrite requests_app, rejections_app, length_app, Hq1, Hj1, Hj2.
  split; [apply Forall_app; split; [repeat constructor | exact Ha2]|].
  split; [|reflexivity]. cbn [List.length]. lia.
Qed.

(** X12. Whatever the user does and whatever the network answers, no handler
    lets an error escape: a session of any length completes normally, and
    none of the un-awaited calls of [fetchProducts] in it leaves a rejected
    promise behind. *)
Theorem session_never_throws (acts : list Action) (net : Network) :
  fst (session acts net fresh) = Normal tt
  /\ rejections (trace (snd (session acts net fresh))) = [].
Proof.
  destruct (session_steps acts net) as (st' & evs & -> & _ & _ & _ & Hj).
  split; [reflexivity | exact Hj].
Qed.

(** X13. Every request a session sends is one of the four calls of the API: GET
    or POST on the collection, PUT on the endpoint of a product with a
    non-zero id, DELETE on the endpoint of a product; a body goes with POST
    and PUT only, and its price is never [NaN]. *)
Theorem session_requests_are_api_calls (acts : list Action) (net : Network) :
  Forall api_call (requests (trace (snd (session acts net fresh)))).
Proof.
  destruct (session_steps acts net) as (st' & evs & -> & _ & Ha & _).
  exact Ha.
Qed.

(** X14. The list the page holds is never pieced together locally: at any point
    of a session it is the initial empty list or, whole and in order, the
    reply the server gave to one of the fetches. *)
Theorem session_list_is_served (acts : list Action) (net : Network) :
  let st := state (snd (session acts net fresh)) in
  products st = [] \/ served net (products st).
Proof.
  destruct (session_steps acts net) as (st' & evs & -> & [Hp _] & _).
  exact Hp.
Qed.

(** X15. The product being edited, when there is one, is always a product the
    server once listed: edit mode is only entered from a rendered row. *)
Theorem session_editing_target_is_served (acts : list Action) (net : Network) :
  let st := state (snd (session acts net fresh)) in
  editingId st = None
  \/ exists data p,
       served net data /\ In p data /\ editingId st = Some (Product.id p).
Proof.
  destruct (session_steps acts net) as (st' & evs & -> & [_ He] & _).
  exact He.
Qed.


(** ** Submissions in general *)

(** X17. Every submission, in any state and whatever becomes of its request and
    of the re-fetch, sends exactly two requests, the create or update and
    then the GET of the collection, and leaves the form empty. *)
Theorem submit_always_resets_and_fetches (net : Network) (w : World) :
  let w' := snd (fire handleSubmit net w) in
  (exists r,
     issued w w' = [r; fetch_request]
     /\ (method r = POST \/ method r = PUT)
     /\ body r = Some (submissionData (state w)))
  /\ formData (state w') = Form.mk "" "" "".
Proof.
  cbn zeta. split.
  - exists (submit_request (state w)). split; [apply handleSubmit_issued|].
    unfold submit_request.
    destruct (ToBoolean_id (editingId (state w))); cbn [method body]; auto.
  - destruct (handleSubmit_state net w) as [-> _]. unfold submitted.
    now destruct (net (sent w) _).
Qed.

(** X18. A product whose id is [0] cannot be updated from the page: pressing
    Edit on it and submitting sends a POST with its data to the collection,
    and the editing target is still [0] afterwards, whatever the outcome. *)
Theorem edit_zero_then_submit_creates (p : Product.t) (net : Network) (w : World) :
  Product.id p = 0 ->
  let w1 := snd (handleEdit p net w) in
  let w2 := snd (fire handleSubmit net w1) in
  issued w w2 =
    [mkRequest POST collection_endpoint
       (Some (Payload.mk (Product.name p)
                (or_string (Product.description p) "")
                (or_number (parseFloat (Product.price p)) zero)));
     fetch_request]
  /\ editingId (state w2) = Some 0.
Proof.
  intros Hid. cbn zeta. rewrite handleEdit_run. cbn [snd].
  set (w1 := mkWorld _ (trace w)).
  assert (Hi : issued w (snd (fire handleSubmit net w1)) =
               issued w1 (snd (fire handleSubmit net w1))) by reflexivity.
  destruct (handleSubmit_state net w1) as [_ Hed].
  rewrite Hi, handleSubmit_issued, Hed.
  unfold submit_request, submitted. subst w1. cbn [state editingId].
  rewrite Hid. cbn [ToBoolean_id Z.eqb negb]. split; [reflexivity|].
  now destruct (net _ _).
Qed.

Lemma edit_zero_then_submit_creates_witness :
  Product.id (Product.mk 0 "Ink" (Some "blue") "3") = 0
  /\ issued fresh
       (snd (fire handleSubmit online
               (snd (handleEdit (Product.mk 0 "Ink" (Some "blue") "3") online fresh))))
     = [mkRequest POST "/products/" (Some (Payload.mk "Ink" "blue" (Dec false 3 0)));
        fetch_request]
  /\ editingId
       (state (snd (fire handleSubmit online
                      (snd (handleEdit (Product.mk 0 "Ink" (Some "blue") "3")
                              online fresh)))))
     = Some 0.
Proof.
  split; [reflexivity|].
  apply (edit_zero_then_submit_creates (Product.mk 0 "Ink" (Some "blue") "3")
           online fresh).
  reflexivity.
Defined.
